(** * Scripted orderbook simulation (optionalgo.py)

    A shallow embedding of [simulate] and of its nested helper [record],
    and the properties of the five-row event table it builds.

    Python floats are IEEE 754 binary64 values: they are modelled by Rocq's
    primitive floats, whose operations are that same arithmetic.  Python
    integers are [Z].  The two mutable objects that [record] shares with the
    body of [simulate] (the [orderbook] dict and the [events] list) and the
    counter [ts] live in an explicit store threaded through a state and
    exception monad.  The value of [simulate] is the list of rows handed to
    [pd.DataFrame], in order. *)

From Stdlib Require Import Floats ZArith List String Bool Sorted Lia.
Import ListNotations.

Local Open Scope float_scope.

(** ** Data model *)

(** The participants are plain strings in the source. *)
Definition HUMAN : string := "HUMAN".
Definition ALGO : string := "ALGO".
Definition OTHER : string := "OTHER".

(** An order is the tuple [(price, quantity, participant)]. *)
Definition order : Type := float * Z * string.

(** [lambda x: x[0]], the sort key handed to [max] and [min]. *)
Definition price_of (x : order) : float := fst (fst x).

(** The dict [{'bids': [...], 'asks': [...]}]: two keys, fixed for the whole
    run, each bound to a list of orders. *)
Record book : Type := mkBook {
  bids : list order;
  asks : list order
}.

(** One row of the event table (the dict appended to [events]). *)
Record event : Type := mkEvent {
  t : Z;
  actor : string;
  action : string;
  price : option float;
  best_bid : float;
  best_ask : float;
  mid : float;
  note : option string
}.

(** The module-level values read by [simulate]: four [number_input] floats
    and the integer returned by the slider. *)
Record params : Type := mkParams {
  fair_price : float;
  algo_bid : float;
  algo_ask : float;
  human_buy : float;
  threshold_pct : Z
}.

(** The slider is created with bounds 0 and 100. *)
Definition valid_params (p : params) : Prop :=
  (0 <= threshold_pct p <= 100)%Z.

(** The local variables of one activation of [simulate] that are assigned
    more than once or mutated in place. *)
Record locals : Type := mkLocals {
  orderbook : book;
  events : list event;
  ts : Z
}.

(** The exceptions that the list operations of the body can raise. *)
Inductive exn : Type :=
| ValueError    (* max() or min() of an empty sequence *)
| IndexError.   (* list assignment index out of range *)

(** ** The state and exception monad *)

Definition M (A : Type) : Type := locals -> exn + (A * locals).

Definition ret {A} (a : A) : M A := fun s => inr (a, s).

Definition bind {A B} (m : M A) (k : A -> M B) : M B :=
  fun s => match m s with
           | inl e => inl e
           | inr (a, s') => k a s'
           end.

Definition lift {A} (r : exn + A) : M A :=
  fun s => match r with
           | inl e => inl e
           | inr a => inr (a, s)
           end.

Definition get : M locals := fun s => inr (s, s).
Definition put (s : locals) : M unit := fun _ => inr (tt, s).

Declare Scope monad_scope.
Delimit Scope monad_scope with monad.
Notation "x <- c1 ;; c2" := (bind c1 (fun x => c2))
  (at level 61, c1 at next level, right associativity) : monad_scope.
Notation "c1 ;; c2" := (bind c1 (fun _ => c2))
  (at level 61, right associativity) : monad_scope.
Local Open Scope monad_scope.

(** The value a computation returns, the final store dropped. *)
Definition eval {A} (m : M A) (s : locals) : exn + A :=
  match m s with
  | inl e => inl e
  | inr (a, _) => inr a
  end.

(** ** Python built-ins used by the body *)

(** [max(seq, key=lambda x: x[0])]: the running maximum is replaced only by
    an item whose key is strictly greater, so the first maximal item wins. *)
Fixpoint max_from (best : order) (l : list order) : order :=
  match l with
  | [] => best
  | x :: r => max_from (if price_of best <? price_of x then x else best) r
  end.

Definition py_max (l : list order) : exn + order :=
  match l with
  | [] => inl ValueError
  | x :: r => inr (max_from x r)
  end.

(** [min(seq, key=lambda x: x[0])]: replaced only by a strictly smaller key. *)
Fixpoint min_from (best : order) (l : list order) : order :=
  match l with
  | [] => best
  | x :: r => min_from (if price_of x <? price_of best then x else best) r
  end.

Definition py_min (l : list order) : exn + order :=
  match l with
  | [] => inl ValueError
  | x :: r => inr (min_from x r)
  end.

(** [seq[i] = v] for a non-negative index. *)
Fixpoint setitem {A} (l : list A) (i : nat) (v : A) : exn + list A :=
  match l, i with
  | [], _ => inl IndexError
  | _ :: r, O => inr (v :: r)
  | x :: r, S j => match setitem r j v with
                   | inl e => inl e
                   | inr r' => inr (x :: r')
                   end
  end.

(** [float(n)] for an integer.  The conversion is exact for every [n] with
    [|n| <= 2^53], which covers the slider's range. *)
Definition float_of_int (n : Z) : float :=
  if (n <? 0)%Z then - of_uint63 (Uint63.of_Z (- n))
  else of_uint63 (Uint63.of_Z n).

(** [a / b] on two integers (true division).  Python returns the correctly
    rounded quotient; when both operands convert exactly this is the
    binary64 quotient of the conversions. *)
Definition int_truediv (a b : Z) : float :=
  float_of_int a / float_of_int b.

(** ** The store operations behind the subscript expressions *)

Definition get_bids : M (list order) := s <- get ;; ret (bids (orderbook s)).
Definition get_asks : M (list order) := s <- get ;; ret (asks (orderbook s)).

Definition set_bids (l : list order) : M unit :=
  s <- get ;;
  put (mkLocals (mkBook l (asks (orderbook s))) (events s) (ts s)).

Definition set_asks (l : list order) : M unit :=
  s <- get ;;
  put (mkLocals (mkBook (bids (orderbook s)) l) (events s) (ts s)).

Definition set_orderbook (b : book) : M unit :=
  s <- get ;; put (mkLocals b (events s) (ts s)).

Definition set_events (l : list event) : M unit :=
  s <- get ;; put (mkLocals (orderbook s) l (ts s)).

Definition get_ts : M Z := s <- get ;; ret (ts s).

Definition set_ts (n : Z) : M unit :=
  s <- get ;; put (mkLocals (orderbook s) (events s) n).

(** [events.append(e)] *)
Definition events_append (e : event) : M unit :=
  s <- get ;; put (mkLocals (orderbook s) (events s ++ [e]) (ts s)).

(** [orderbook['bids'].append(o)] *)
Definition bids_append (o : order) : M unit :=
  l <- get_bids ;; set_bids (l ++ [o]).

(** [orderbook['bids'][i] = o] *)
Definition bids_setitem (i : nat) (o : order) : M unit :=
  l <- get_bids ;; l' <- lift (setitem l i o) ;; set_bids l'.

(** [orderbook['asks'][i] = o] *)
Definition asks_setitem (i : nat) (o : order) : M unit :=
  l <- get_asks ;; l' <- lift (setitem l i o) ;; set_asks l'.

(** ** The program *)

(** The nested function [record]: it reads the orderbook of the enclosing
    activation and appends one row to its event list. *)
Definition record (ts : Z) (actor action : string)
    (price : option float) (note : option string) : M unit :=
  bl <- get_bids ;;
  b <- lift (py_max bl) ;;
  let bb := price_of b in
  al <- get_asks ;;
  a <- lift (py_min al) ;;
  let ba := price_of a in
  let mid := (bb + ba) / 2 in
  events_append (mkEvent ts actor action price bb ba mid note).

(** [fair_price * (1 + threshold_pct / 100)] *)
Definition sell_trigger (p : params) : float :=
  fair_price p * (1 + int_truediv (threshold_pct p) 100).

(** Lines 59-60: the two objects are created afresh. *)
Definition setup (p : params) : M unit :=
  set_orderbook (mkBook [(algo_bid p, 100%Z, ALGO)] [(algo_ask p, 100%Z, ALGO)]) ;;
  set_events [].

(** Lines 68-69. *)
Definition step0 (p : params) : M unit :=
  set_ts 0 ;;
  ts <- get_ts ;;
  record ts "INIT" "Initial quotes" None None.

(** Lines 71-73. *)
Definition step1 (p : params) : M unit :=
  ts <- get_ts ;; set_ts (ts + 1) ;;
  bids_append (human_buy p, 10%Z, HUMAN) ;;
  ts <- get_ts ;;
  record ts HUMAN "Post bid" (Some (human_buy p)) (Some "Human places limit buy"%string).

(** Lines 75-77. *)
Definition step2 (p : params) : M unit :=
  ts <- get_ts ;; set_ts (ts + 1) ;;
  bids_setitem 0 (algo_bid p + 2, 100%Z, ALGO) ;;
  ts <- get_ts ;;
  record ts ALGO "Improves bid" (Some (algo_bid p + 2))
         (Some "Algo moves bid up slightly"%string).

(** Lines 79-82. *)
Definition step3 (p : params) : M unit :=
  ts <- get_ts ;; set_ts (ts + 1) ;;
  let sell_trigger := sell_trigger p in
  asks_setitem 0 (sell_trigger, 100%Z, ALGO) ;;
  ts <- get_ts ;;
  record ts ALGO "Sell trigger" (Some sell_trigger)
         (Some "Algo prepares to sell at threshold"%string).

(** Lines 84-87. *)
Definition step4 (p : params) : M unit :=
  ts <- get_ts ;; set_ts (ts + 1) ;;
  asks_setitem 0 (algo_ask p, 100%Z, ALGO) ;;
  bids_setitem 0 (algo_bid p, 100%Z, ALGO) ;;
  ts <- get_ts ;;
  record ts ALGO "Reset quotes" None (Some "Algo resets to original quotes"%string).

(** [simulate]: the rows of the returned data frame, in order. *)
Definition simulate (p : params) : M (list event) :=
  setup p ;;
  step0 p ;;
  step1 p ;;
  step2 p ;;
  step3 p ;;
  step4 p ;;
  s <- get ;;
  ret (events s).

(** The five blocks of the script, each ending in a call of [record]. *)
Definition script (p : params) : list (M unit) :=
  [step0 p; step1 p; step2 p; step3 p; step4 p].

(** The stores at the snapshot points: the one left by each block in turn. *)
Fixpoint scan (steps : list (M unit)) (s : locals) : exn + list locals :=
  match steps with
  | [] => inr []
  | c :: r =>
      match c s with
      | inl e => inl e
      | inr (_, s') =>
          match scan r s' with
          | inl e => inl e
          | inr l => inr (s' :: l)
          end
      end
  end.

Definition snapshots (p : params) (s : locals) : exn + list locals :=
  match setup p s with
  | inl e => inl e
  | inr (_, s0) => scan (script p) s0
  end.

(** Two presses of the run button, one after the other, in the same store. *)
Definition simulate_twice (p : params) : M (list event * list event) :=
  df1 <- simulate p ;;
  df2 <- simulate p ;;
  ret (df1, df2).

(** The widgets' default values. *)
Definition defaults : params := mkParams 40 20 100 21 20.

(** A store before any activation. *)
Definition no_locals : locals := mkLocals (mkBook [] []) [] 0.

(** The greater of two floats as Python's two-argument [max(a, b)] picks it:
    the second only when it is strictly greater. *)
Definition fmax (a b : float) : float := if a <? b then b else a.


(** ** Observations of a run *)

(** The row with index [k] of the table returned by a run started in
    store [s]. *)
Definition row (p : params) (s : locals) (k : nat) : option event :=
  match eval (simulate p) s with
  | inl _ => None
  | inr df => nth_error df k
  end.

(** The pair of columns [best_bid], [best_ask] of a row. *)
Definition quotes (e : event) : float * float := (best_bid e, best_ask e).

(** The row [e] is the one appended last in store [st], its three computed
    columns come from what [max] and [min] return on the book of [st], and
    [mid] is their mean. *)
Definition snapshot_row (st : locals) (e : event) : Prop :=
  hd_error (rev (events st)) = Some e /\
  (exists b, py_max (bids (orderbook st)) = inr b /\ best_bid e = price_of b) /\
  (exists a, py_min (asks (orderbook st)) = inr a /\ best_ask e = price_of a) /\
  mid e = (best_bid e + best_ask e) / 2.

(** ** The specification's vocabulary *)

(** [m] is the maximum price of the orders [l]: one of the prices, and no
    price is above it. *)
Definition maximum_price (l : list order) (m : float) : Prop :=
  In m (map price_of l) /\
  forall x, In x (map price_of l) -> (x <=? m) = true.

(** [m] is the minimum price of the orders [l]. *)
Definition minimum_price (l : list order) (m : float) : Prop :=
  In m (map price_of l) /\
  forall x, In x (map price_of l) -> (m <=? x) = true.

Definition extremal_row (st : locals) (e : event) : Prop :=
  maximum_price (bids (orderbook st)) (best_bid e) /\
  minimum_price (asks (orderbook st)) (best_ask e).

(** No order of the list, respectively of the book, is priced NaN. *)
Definition priced (l : list order) : Prop :=
  Forall (fun x => is_nan (price_of x) = false) l.

Definition book_priced (b : book) : Prop := priced (bids b) /\ priced (asks b).

(** The four prices typed in are numbers (not NaN). *)
Definition numeric_params (p : params) : Prop :=
  is_nan (fair_price p) = false /\ is_nan (algo_bid p) = false /\
  is_nan (algo_ask p) = false /\ is_nan (human_buy p) = false.

(** ** Classes of specification floats *)

Definition sf_nan (x : spec_float) : bool :=
  match x with S754_nan => true | _ => false end.

Definition sf_finite (x : spec_float) : bool :=
  match x with S754_zero _ | S754_finite _ _ _ => true | _ => false end.

Definition sf_nonzero_finite (x : spec_float) : bool :=
  match x with S754_finite _ _ _ => true | _ => false end.

(** The factor [1 + n / 100] is a non-zero finite number. *)
Definition markup_ok (n : nat) : bool :=
  sf_nonzero_finite (Prim2SF (1 + int_truediv (Z.of_nat n) 100)).

(** ** Who stands where in the book *)

(** The order was placed by participant [who] (the third component). *)
Definition placed_by (who : string) (o : order) : bool := String.eqb (snd o) who.

(** The quantity of an order (the second component). *)
Definition quantity_of (o : order) : Z := snd (fst o).

(** The orders of both sides of a book. *)
Definition standing (b : book) : list order := bids b ++ asks b.

(** Each participant's presence in a book: the algo has exactly one bid and
    one ask, each for 100; the human has at most one bid, for 10, and no
    ask; nobody else has any order. *)
Definition one_quote_each (b : book) : Prop :=
  List.length (filter (placed_by ALGO) (bids b)) = 1%nat /\
  List.length (filter (placed_by ALGO) (asks b)) = 1%nat /\
  (List.length (filter (placed_by HUMAN) (bids b)) <= 1)%nat /\
  filter (placed_by HUMAN) (asks b) = [] /\
  filter (placed_by OTHER) (standing b) = [] /\
  Forall (fun o => quantity_of o = if placed_by ALGO o then 100%Z else 10%Z)
         (standing b).

(** The price column of a row names an order of the row's actor standing in
    the book at [st]. *)
Definition price_anchored (st : locals) (e : event) : Prop :=
  match price e with
  | None => True
  | Some x => exists q, In (x, q, actor e) (standing (orderbook st))
  end.

(** Symbolic execution of the script: unfold the program and the store
    operations, leave the float arithmetic alone. *)
Ltac run :=
  cbv [simulate simulate_twice snapshots script scan setup
       step0 step1 step2 step3 step4 record
       bids_append bids_setitem asks_setitem events_append
       set_ts get_ts set_events set_orderbook set_asks set_bids
       get_asks get_bids get put lift bind ret eval row quotes
       py_max py_min max_from min_from setitem app nth_error map List.length
       orderbook events ts bids asks price_of fst snd
       t actor action price best_bid best_ask mid note
       fair_price algo_bid algo_ask human_buy threshold_pct
       HUMAN ALGO Z.add Pos.add Pos.succ].

(** * Properties *)

(** ** Order facts on binary64, through the specification floats *)

Lemma is_nan_Prim2SF x : is_nan x = sf_nan (Prim2SF x).
Proof.
  unfold is_nan. rewrite FloatAxioms.eqb_spec. unfold SFeqb.
  destruct (Prim2SF x) as [s|s| |s m e]; simpl; try (destruct s; reflexivity); try reflexivity.
  destruct s; rewrite Z.compare_refl, Pos.compare_cont_refl; reflexivity.
Qed.

Lemma SFcompare_refl x : sf_nan x = false -> SFcompare x x = Some Eq.
Proof.
  destruct x as [s|s| |s m e]; simpl; try (destruct s; reflexivity); try discriminate.
  intros _. destruct s; rewrite Z.compare_refl, Pos.compare_cont_refl; reflexivity.
Qed.

Lemma SFcompare_nan x y : SFcompare x y = None -> sf_nan x = true \/ sf_nan y = true.
Proof.
  destruct x as [s|s| |s m e], y as [s'|s'| |s' m' e']; simpl; auto; discriminate.
Qed.

Lemma SFcompare_antisym x y c :
  SFcompare x y = Some c -> SFcompare y x = Some (CompOpp c).
Proof.
  destruct x as [s|s| |s m e], y as [s'|s'| |s' m' e']; simpl;
    try discriminate; try (destruct s); try (destruct s');
    intros H; inversion H; subst; clear H; simpl; try reflexivity.
  all: change (Pos.compare_cont Eq m' m) with (Pos.compare m' m);
       change (Pos.compare_cont Eq m m') with (Pos.compare m m');
       rewrite (Z.compare_antisym e e'), (Pos.compare_antisym m m');
       destruct (e ?= e')%Z; simpl; try reflexivity;
       destruct (Pos.compare m m'); reflexivity.
Qed.


Lemma SFcompare_trans_le x y z c1 c2 :
  SFcompare x y = Some c1 -> SFcompare y z = Some c2 ->
  c1 <> Gt -> c2 <> Gt ->
  exists c, SFcompare x z = Some c /\ c <> Gt /\ (c1 = Lt \/ c2 = Lt -> c = Lt).
Proof.
  destruct x as [s|s| |s m e], y as [s'|s'| |s' m' e'], z as [s''|s''| |s'' m'' e''];
    simpl; try discriminate;
    try (destruct s); try (destruct s'); try (destruct s'');
    intros H1 H2 N1 N2; inversion H1; subst; clear H1; inversion H2; subst; clear H2;
    try congruence;
    try (eexists; split; [reflexivity|split; [discriminate| intros [?|?]; congruence]]).
  all: change (Pos.compare_cont Eq) with Pos.compare in *.
  all: eexists; split; [reflexivity|].
  all: destruct (Z.compare_spec e e'), (Z.compare_spec e' e''), (Z.compare_spec e e''); try lia; try congruence;
       simpl in *; try (split; [discriminate| intros [?|?]; congruence]).
  all: destruct (Pos.compare_spec m m'), (Pos.compare_spec m' m''), (Pos.compare_spec m m''); try lia; simpl in *; try congruence;
       try (split; [discriminate| intros [?|?]; congruence]).
Qed.


Lemma shr_1_nonneg mrs : (0 <= shr_m mrs)%Z -> (0 <= shr_m (shr_1 mrs))%Z.
Proof.
  destruct mrs as [m r b]; simpl.
  destruct m as [|q|q]; simpl; try lia; destruct q; simpl; lia.
Qed.

Lemma iter_pos_shr_1_nonneg n : forall mrs,
  (0 <= shr_m mrs)%Z -> (0 <= shr_m (SpecFloat.iter_pos shr_1 n mrs))%Z.
Proof.
  induction n as [n IH|n IH|]; simpl; intros mrs H.
  - apply IH, IH, shr_1_nonneg, H.
  - apply IH, IH, H.
  - apply shr_1_nonneg, H.
Qed.

Lemma shr_fexp_nonneg m e l :
  (0 <= m)%Z -> (0 <= shr_m (fst (shr_fexp prec emax m e l)))%Z.
Proof.
  intros H. unfold shr_fexp, shr.
  assert (H0 : (0 <= shr_m (shr_record_of_loc m l))%Z).
  { destruct l as [|[ | | ]]; simpl; exact H. }
  destruct (fexp prec emax (Zdigits2 m + e) - e)%Z; simpl; auto.
  apply iter_pos_shr_1_nonneg, H0.
Qed.

Lemma round_nearest_even_nonneg m l :
  (0 <= m)%Z -> (0 <= round_nearest_even m l)%Z.
Proof.
  intros H. destruct l as [|[ | | ]]; simpl; try lia.
  destruct (Z.even m); lia.
Qed.

Lemma binary_round_aux_not_nan sx mx ex lx :
  (0 <= mx)%Z -> sf_nan (binary_round_aux prec emax sx mx ex lx) = false.
Proof.
  intros H. unfold binary_round_aux.
  pose proof (shr_fexp_nonneg mx ex lx H) as H1.
  destruct (shr_fexp prec emax mx ex lx) as [mrs' e']. simpl in H1.
  pose proof (shr_fexp_nonneg _ e' loc_Exact
                (round_nearest_even_nonneg _ (loc_of_shr_record mrs') H1)) as H2.
  destruct (shr_fexp prec emax _ e' loc_Exact) as [mrs'' e'']. simpl in H2.
  destruct (shr_m mrs'') as [|q|q]; try reflexivity; try lia.
  destruct (e'' <=? emax - prec)%Z; reflexivity.
Qed.

Lemma binary_normalize_not_nan m e b :
  sf_nan (binary_normalize prec emax m e b) = false.
Proof.
  unfold binary_normalize, binary_round.
  destruct m as [|q|q]; try reflexivity;
    destruct (shl_align _ _ _) as [mz ez]; apply binary_round_aux_not_nan; lia.
Qed.

Lemma SFadd_not_nan x y :
  sf_nan x = false -> sf_finite y = true -> sf_nan (SF64add x y) = false.
Proof.
  unfold SF64add, SFadd.
  destruct x as [s|s| |s m e], y as [s'|s'| |s' m' e']; simpl;
    try discriminate; try reflexivity; intros _ _;
    try (destruct s, s'; reflexivity).
  apply binary_normalize_not_nan.
Qed.

Lemma SFmul_not_nan x y :
  sf_nan x = false -> sf_nonzero_finite y = true -> sf_nan (SF64mul x y) = false.
Proof.
  unfold SF64mul, SFmul.
  destruct x as [s|s| |s m e], y as [s'|s'| |s' m' e']; simpl;
    try discriminate; try reflexivity; intros _ _.
  apply binary_round_aux_not_nan. lia.
Qed.

(** *** The same facts on primitive floats *)

Lemma ltb_irrefl x : (x <? x) = false.
Proof.
  rewrite ltb_spec. unfold SFltb.
  destruct (sf_nan (Prim2SF x)) eqn:E.
  - destruct (Prim2SF x); try discriminate; reflexivity.
  - rewrite (SFcompare_refl _ E). reflexivity.
Qed.

Lemma ltb_leb x y : (x <? y) = true -> (x <=? y) = true.
Proof.
  rewrite ltb_spec, leb_spec. unfold SFltb, SFleb.
  destruct (SFcompare (Prim2SF x) (Prim2SF y)) as [[ | | ]|]; congruence.
Qed.

Lemma leb_refl x : is_nan x = false -> (x <=? x) = true.
Proof.
  rewrite is_nan_Prim2SF, leb_spec. unfold SFleb.
  intros E. rewrite (SFcompare_refl _ E). reflexivity.
Qed.

Lemma nltb_leb x y :
  is_nan x = false -> is_nan y = false -> (x <? y) = false -> (y <=? x) = true.
Proof.
  rewrite !is_nan_Prim2SF, ltb_spec, leb_spec. unfold SFltb, SFleb.
  intros Ex Ey.
  destruct (SFcompare (Prim2SF x) (Prim2SF y)) as [c|] eqn:E.
  - rewrite (SFcompare_antisym _ _ _ E). destruct c; simpl; congruence.
  - destruct (SFcompare_nan _ _ E); congruence.
Qed.

Lemma leb_trans x y z :
  (x <=? y) = true -> (y <=? z) = true -> (x <=? z) = true.
Proof.
  rewrite !leb_spec. unfold SFleb.
  destruct (SFcompare (Prim2SF x) (Prim2SF y)) as [c1|] eqn:E1; try discriminate.
  destruct (SFcompare (Prim2SF y) (Prim2SF z)) as [c2|] eqn:E2; try discriminate.
  intros H1 H2.
  destruct (SFcompare_trans_le _ _ _ _ _ E1 E2) as (c & -> & Hc & _).
  - destruct c1; congruence.
  - destruct c2; congruence.
  - destruct c; congruence.
Qed.

Lemma add_not_nan x y :
  is_nan x = false -> sf_finite (Prim2SF y) = true -> is_nan (x + y) = false.
Proof.
  rewrite !is_nan_Prim2SF, add_spec. apply SFadd_not_nan.
Qed.

Lemma mul_not_nan x y :
  is_nan x = false -> sf_nonzero_finite (Prim2SF y) = true ->
  is_nan (x * y) = false.
Proof.
  rewrite !is_nan_Prim2SF, mul_spec. apply SFmul_not_nan.
Qed.

Lemma float_neq (x y : float) : (x =? y) = false -> is_nan x = false -> x <> y.
Proof.
  intros H N E. subst y. unfold is_nan in N. rewrite H in N. discriminate.
Qed.

(** Python's two-argument [max] is a maximum in the usual sense as soon as
    neither argument is NaN. *)
Lemma fmax_greatest a b :
  is_nan a = false -> is_nan b = false ->
  (a <=? fmax a b) = true /\ (b <=? fmax a b) = true /\
  (fmax a b = a \/ fmax a b = b).
Proof.
  intros Na Nb. unfold fmax. destruct (a <? b) eqn:E.
  - repeat split; auto using ltb_leb, leb_refl.
  - repeat split; auto using nltb_leb, leb_refl.
Qed.

Lemma fmax_not_below a b : (fmax a b <? b) = false.
Proof.
  unfold fmax. destruct (a <? b) eqn:E; [apply ltb_irrefl | exact E].
Qed.

(** ** What [max] and [min] with the price key return *)

Lemma max_from_greatest l : forall best,
  priced (best :: l) ->
  In (max_from best l) (best :: l) /\
  forall x, In x (best :: l) -> (price_of x <=? price_of (max_from best l)) = true.
Proof.
  induction l as [|y r IH]; intros best H; simpl.
  - split; [now left|]. intros x [<-|[]].
    apply leb_refl. now inversion H.
  - inversion H as [|? ? Nb H']; subst. inversion H' as [|? ? Ny Hr]; subst.
    set (b' := if price_of best <? price_of y then y else best).
    assert (Hb' : priced (b' :: r)).
    { constructor; [|exact Hr]. unfold b'. now destruct (_ <? _). }
    destruct (IH b' Hb') as [Hin Hge].
    assert (Hbest : (price_of best <=? price_of b') = true).
    { unfold b'. destruct (_ <? _) eqn:E; [now apply ltb_leb | now apply leb_refl]. }
    assert (Hy : (price_of y <=? price_of b') = true).
    { unfold b'. destruct (_ <? _) eqn:E; [now apply leb_refl | now apply nltb_leb]. }
    split.
    + destruct Hin as [Hin|Hin]; [|now right; right].
      rewrite <- Hin. unfold b'. destruct (_ <? _); [right; now left | now left].
    + intros x [<-|[<-|Hx]].
      * eapply leb_trans; [exact Hbest|]. apply Hge. now left.
      * eapply leb_trans; [exact Hy|]. apply Hge. now left.
      * apply Hge. now right.
Qed.

Lemma min_from_least l : forall best,
  priced (best :: l) ->
  In (min_from best l) (best :: l) /\
  forall x, In x (best :: l) -> (price_of (min_from best l) <=? price_of x) = true.
Proof.
  induction l as [|y r IH]; intros best H; simpl.
  - split; [now left|]. intros x [<-|[]].
    apply leb_refl. now inversion H.
  - inversion H as [|? ? Nb H']; subst. inversion H' as [|? ? Ny Hr]; subst.
    set (b' := if price_of y <? price_of best then y else best).
    assert (Hb' : priced (b' :: r)).
    { constructor; [|exact Hr]. unfold b'. now destruct (_ <? _). }
    destruct (IH b' Hb') as [Hin Hle].
    assert (Hbest : (price_of b' <=? price_of best) = true).
    { unfold b'. destruct (_ <? _) eqn:E; [now apply ltb_leb | now apply leb_refl]. }
    assert (Hy : (price_of b' <=? price_of y) = true).
    { unfold b'. destruct (_ <? _) eqn:E; [now apply leb_refl | now apply nltb_leb]. }
    split.
    + destruct Hin as [Hin|Hin]; [|now right; right].
      rewrite <- Hin. unfold b'. destruct (_ <? _); [right; now left | now left].
    + intros x [<-|[<-|Hx]].
      * eapply leb_trans; [|exact Hbest]. apply Hle. now left.
      * eapply leb_trans; [|exact Hy]. apply Hle. now left.
      * apply Hle. now right.
Qed.

Lemma py_max_maximum l b :
  priced l -> py_max l = inr b -> maximum_price l (price_of b).
Proof.
  destruct l as [|x r]; [discriminate|]. intros H E. inversion E; subst b; clear E.
  destruct (max_from_greatest r x H) as [Hin Hge]. split.
  - now apply in_map.
  - intros y Hy. apply in_map_iff in Hy. destruct Hy as (o & <- & Ho). now apply Hge.
Qed.

Lemma py_min_minimum l a :
  priced l -> py_min l = inr a -> minimum_price l (price_of a).
Proof.
  destruct l as [|x r]; [discriminate|]. intros H E. inversion E; subst a; clear E.
  destruct (min_from_least r x H) as [Hin Hle]. split.
  - now apply in_map.
  - intros y Hy. apply in_map_iff in Hy. destruct Hy as (o & <- & Ho). now apply Hle.
Qed.

(** [max] and [min] raise on the empty list only. *)
Lemma py_max_total l : l <> [] -> exists b, py_max l = inr b.
Proof. destruct l; [congruence | eexists; reflexivity]. Qed.

Lemma py_min_total l : l <> [] -> exists a, py_min l = inr a.
Proof. destruct l; [congruence | eexists; reflexivity]. Qed.

Lemma snapshot_row_extremal st e :
  snapshot_row st e -> book_priced (orderbook st) -> extremal_row st e.
Proof.
  intros (_ & (b & Hb & Eb) & (a & Ha & Ea) & _) [Pb Pa]. split.
  - rewrite Eb. now apply py_max_maximum.
  - rewrite Ea. now apply py_min_minimum.
Qed.

Lemma Forall2_strengthen {A B} (P Q : A -> B -> Prop) (R : A -> Prop) l l' :
  (forall a b, P a b -> R a -> Q a b) ->
  Forall2 P l l' -> Forall R l -> Forall2 Q l l'.
Proof.
  intros H F. induction F; intros G; constructor; inversion G; subst; auto.
Qed.

(** ** The derived prices are numbers *)

Lemma markup_table : forallb markup_ok (seq 0 101) = true.
Proof. vm_compute. reflexivity. Qed.

Lemma markup_finite pct :
  (0 <= pct <= 100)%Z ->
  sf_nonzero_finite (Prim2SF (1 + int_truediv pct 100)) = true.
Proof.
  intros H. pose proof markup_table as T.
  rewrite forallb_forall in T.
  specialize (T (Z.to_nat pct)). unfold markup_ok in T.
  rewrite Z2Nat.id in T by lia. apply T, in_seq. lia.
Qed.

Lemma sell_trigger_not_nan p :
  is_nan (fair_price p) = false -> valid_params p ->
  is_nan (sell_trigger p) = false.
Proof.
  intros N V. unfold sell_trigger. apply mul_not_nan; [exact N|].
  now apply markup_finite.
Qed.

Lemma improved_bid_not_nan a : is_nan a = false -> is_nan (a + 2) = false.
Proof. intros N. apply add_not_nan; [exact N | reflexivity]. Qed.

(** On the slider's range [float_of_int] is the rounding of the integer to
    binary64 (which is exact there). *)
Lemma float_of_int_spec n :
  (0 <= n <= 100)%Z ->
  Prim2SF (float_of_int n) = binary_normalize prec emax n 0 false.
Proof.
  intros H. unfold float_of_int.
  destruct (Z.ltb_spec n 0) as [L|_]; [lia|].
  rewrite of_uint63_spec, Uint63.of_Z_spec.
  rewrite Z.mod_small; [reflexivity|].
  change Uint63.wB with (2 ^ 63)%Z. lia.
Qed.

(** ** The table returned by [simulate] *)

(** C1, corrected statement: at t=4 the best ask is [algo_ask] again, and the best
    bid is the greater of [algo_bid] and [human_buy], the human bid being
    still in the book; it is [algo_bid] whenever [human_buy] is not above
    it. *)
Theorem reset_row_quotes (p : params) (s : locals) :
  exists e,
    row p s 4 = Some e /\
    best_ask e = algo_ask p /\
    best_bid e = fmax (algo_bid p) (human_buy p) /\
    ((algo_bid p <? human_buy p) = false -> best_bid e = algo_bid p).
Proof.
  destruct p as [fp ab aa hb pct].
  eexists. split; [run; reflexivity|].
  run. unfold fmax. destruct (ab <? hb); repeat split; try reflexivity.
  discriminate.
Qed.

Lemma reset_row_quotes_witness :
  exists e, row (mkParams 40 20 100 19 20) no_locals 4 = Some e /\
            best_bid e = 20 /\ best_ask e = 100.
Proof.
  destruct (reset_row_quotes (mkParams 40 20 100 19 20) no_locals)
    as (e & He & Ha & _ & Hb).
  exists e. split; [exact He|]. split; [apply Hb; reflexivity | exact Ha].
Defined.

(** With the default inputs the row at t=4 has best bid 21, the human's
    price, and not [algo_bid] = 20. *)
Lemma reset_row_best_bid_counterexample :
  exists e, row defaults no_locals 4 = Some e /\
            best_bid e = 21 /\ best_bid e <> algo_bid defaults.
Proof.
  eexists. split; [vm_compute; reflexivity|]. split; [reflexivity|].
  apply float_neq; reflexivity.
Qed.

(** C2, corrected statement: the default inputs give the quote sequence
    (20,100), (21,100), (22,100), (22,48), (21,100). *)
Theorem default_scenario_quotes (s : locals) :
  exists df,
    eval (simulate defaults) s = inr df /\
    map quotes df = [(20, 100); (21, 100); (22, 100); (22, 48); (21, 100)].
Proof.
  eexists. split; [unfold defaults; run; reflexivity|].
  vm_compute. reflexivity.
Qed.

(** The sequence of the specification, ending in (20,100), is not what the
    default inputs give. *)
Lemma default_scenario_counterexample :
  exists df,
    eval (simulate defaults) no_locals = inr df /\
    map quotes df <> [(20, 100); (21, 100); (22, 100); (22, 48); (20, 100)].
Proof.
  eexists. split; [vm_compute; reflexivity|].
  intros H.
  apply (f_equal (fun l => fst (nth 4 l (0, 0)))) in H. vm_compute in H.
  revert H. apply float_neq; reflexivity.
Qed.

(** C3: the table has exactly five rows, with timestamps 0..4 strictly
    increasing and the actors and actions of the script, in order. *)
Theorem simulate_five_rows (p : params) (s : locals) :
  exists df,
    eval (simulate p) s = inr df /\
    List.length df = 5%nat /\
    map t df = [0; 1; 2; 3; 4]%Z /\
    StronglySorted Z.lt (map t df) /\
    map actor df = ["INIT"; "HUMAN"; "ALGO"; "ALGO"; "ALGO"]%string /\
    map action df = ["Initial quotes"; "Post bid"; "Improves bid";
                     "Sell trigger"; "Reset quotes"]%string.
Proof.
  destruct p as [fp ab aa hb pct].
  eexists. split; [run; reflexivity|].
  run. repeat split.
  repeat (constructor; [|repeat constructor; reflexivity]). constructor.
Qed.

(** C4: at t=1 the bid list holds the algo bid followed by the human bid,
    and the row's best bid is the greater of [algo_bid] and [human_buy]. *)
Theorem post_bid_best_bid (p : params) (s : locals) :
  exists snaps st e,
    snapshots p s = inr snaps /\ nth_error snaps 1 = Some st /\
    row p s 1 = Some e /\
    bids (orderbook st) = [(algo_bid p, 100%Z, ALGO); (human_buy p, 10%Z, HUMAN)] /\
    best_bid e = fmax (algo_bid p) (human_buy p).
Proof.
  destruct p as [fp ab aa hb pct].
  do 3 eexists. split; [run; reflexivity|].
  split; [reflexivity|]. split; [run; reflexivity|].
  split; [reflexivity|].
  run. unfold fmax. destruct (ab <? hb); reflexivity.
Qed.

(** C5: at t=3 the best ask is [fair_price * (1 + threshold_pct / 100)] as
    binary64 arithmetic evaluates it, and the row's price is that value. *)
Theorem sell_trigger_row (p : params) (s : locals) :
  exists e,
    row p s 3 = Some e /\
    best_ask e = fair_price p * (1 + int_truediv (threshold_pct p) 100) /\
    price e = Some (fair_price p * (1 + int_truediv (threshold_pct p) 100)).
Proof.
  destruct p as [fp ab aa hb pct].
  eexists. split; [run; reflexivity|].
  split; reflexivity.
Qed.

(** At every snapshot point the book holds numbers only, when the inputs
    are numbers and the threshold is in the slider's range. *)
Lemma snapshots_priced (p : params) (s : locals) :
  numeric_params p -> valid_params p ->
  exists snaps,
    snapshots p s = inr snaps /\
    Forall (fun st => book_priced (orderbook st)) snaps.
Proof.
  intros (Nf & Nb & Na & Nh) V.
  pose proof (sell_trigger_not_nan p Nf V) as Nt.
  pose proof (improved_bid_not_nan _ Nb) as Ni.
  destruct p as [fp ab aa hb pct]. simpl in *.
  eexists. split; [run; reflexivity|].
  repeat constructor; assumption.
Qed.

(** C6: every row is the snapshot of the book at the time it is recorded:
    [best_bid] is what [max] returns on the bids, [best_ask] what [min]
    returns on the asks, and [mid] is [(best_bid + best_ask) / 2]; for
    numeric inputs these are the maximum bid price and the minimum ask
    price. *)
Theorem rows_are_snapshots (p : params) (s : locals) :
  exists snaps df,
    snapshots p s = inr snaps /\
    eval (simulate p) s = inr df /\
    Forall2 snapshot_row snaps df /\
    (numeric_params p -> valid_params p -> Forall2 extremal_row snaps df).
Proof.
  assert (H : exists snaps df,
             snapshots p s = inr snaps /\ eval (simulate p) s = inr df /\
             Forall2 snapshot_row snaps df).
  { destruct p as [fp ab aa hb pct].
    do 2 eexists. split; [run; reflexivity|]. split; [run; reflexivity|].
    repeat constructor; try (eexists; split; reflexivity). }
  destruct H as (snaps & df & Hs & Hd & HF).
  exists snaps, df. repeat split; try assumption.
  intros N V. destruct (snapshots_priced p s N V) as (snaps' & Hs' & HP).
  rewrite Hs in Hs'. inversion Hs'; subst snaps'.
  eapply Forall2_strengthen; [|exact HF|exact HP].
  intros st e. apply snapshot_row_extremal.
Qed.

Lemma rows_are_snapshots_witness :
  exists snaps df,
    snapshots defaults no_locals = inr snaps /\
    eval (simulate defaults) no_locals = inr df /\
    Forall2 extremal_row snaps df.
Proof.
  destruct (rows_are_snapshots defaults no_locals) as (snaps & df & Hs & Hd & _ & H).
  exists snaps, df. split; [exact Hs|]. split; [exact Hd|].
  apply H.
  - repeat split; reflexivity.
  - unfold valid_params; simpl; lia.
Defined.

(** C7: a crossed book is reachable: with valid, finite inputs some row has
    its best ask strictly below its best bid. *)
Theorem crossed_book_reachable :
  exists p,
    valid_params p /\
    is_finite (fair_price p) = true /\ is_finite (algo_bid p) = true /\
    is_finite (algo_ask p) = true /\ is_finite (human_buy p) = true /\
    forall s, exists df e,
      eval (simulate p) s = inr df /\ In e df /\
      (best_ask e <? best_bid e) = true.
Proof.
  exists (mkParams 10 20 100 21 20).
  split; [unfold valid_params; simpl; lia|].
  do 4 (split; [reflexivity|]).
  intros s. do 2 eexists. split; [run; reflexivity|].
  split; [do 3 right; left; reflexivity|].
  vm_compute. reflexivity.
Qed.

(** C8: the table does not depend on the store the run starts in, and two
    runs in a row with the same inputs return the same table. *)
Theorem simulate_deterministic (p : params) (s s' : locals) :
  eval (simulate p) s = eval (simulate p) s' /\
  exists df, eval (simulate_twice p) s = inr (df, df).
Proof.
  destruct p as [fp ab aa hb pct]. split.
  - run. reflexivity.
  - eexists. run. reflexivity.
Qed.

(** C9: the run has five snapshot points, and at each of them neither the
    bid list nor the ask list is empty. *)
Theorem book_never_empty (p : params) (s : locals) :
  exists snaps,
    snapshots p s = inr snaps /\
    List.length snaps = 5%nat /\
    Forall (fun st => bids (orderbook st) <> [] /\ asks (orderbook st) <> []) snaps.
Proof.
  destruct p as [fp ab aa hb pct].
  eexists. split; [run; reflexivity|]. split; [reflexivity|].
  repeat constructor; discriminate.
Qed.

(** C10: from t=1 on the human bid is in the bid list and no row has its
    best bid below [human_buy] (it is at least [human_buy] when the two
    prices are numbers); the best bid is the greater of [algo_bid + 2] and
    [human_buy] at t=2 and t=3, and of [algo_bid] and [human_buy] at t=4. *)
Theorem human_bid_stays (p : params) (s : locals) :
  exists snaps df,
    snapshots p s = inr snaps /\
    eval (simulate p) s = inr df /\
    (forall k st, (1 <= k)%nat -> nth_error snaps k = Some st ->
       In (human_buy p, 10%Z, HUMAN) (bids (orderbook st))) /\
    (forall k e, (1 <= k)%nat -> nth_error df k = Some e ->
       (best_bid e <? human_buy p) = false /\
       (is_nan (algo_bid p) = false -> is_nan (human_buy p) = false ->
        (human_buy p <=? best_bid e) = true)) /\
    option_map best_bid (nth_error df 2) = Some (fmax (algo_bid p + 2) (human_buy p)) /\
    option_map best_bid (nth_error df 3) = Some (fmax (algo_bid p + 2) (human_buy p)) /\
    option_map best_bid (nth_error df 4) = Some (fmax (algo_bid p) (human_buy p)).
Proof.
  destruct p as [fp ab aa hb pct].
  do 2 eexists. split; [run; reflexivity|]. split; [run; reflexivity|].
  split; [|split].
  - intros k st Hk E.
    destruct k as [|[|[|[|[|k]]]]]; try lia; simpl in E;
      try (inversion E; subst st; simpl; auto; fail).
    destruct k; discriminate.
  - intros k e Hk E. simpl.
    destruct k as [|[|[|[|[|k]]]]]; try lia; simpl in E;
      try (destruct k; discriminate);
      inversion E; subst e; clear E; simpl;
      match goal with
      | |- context [if ?a <? ?b then _ else _] => destruct (a <? b) eqn:C
      end;
      (split; [solve [apply ltb_irrefl | exact C] |]); intros Na Nb;
      solve [ apply leb_refl; exact Nb
            | apply nltb_leb; auto using improved_bid_not_nan ].
  - simpl. unfold fmax.
    repeat split; match goal with |- context [?a <? ?b] => destruct (a <? b) end;
      reflexivity.
Qed.

Lemma human_bid_stays_witness :
  exists e, row defaults no_locals 2 = Some e /\
            (human_buy defaults <=? best_bid e) = true.
Proof.
  destruct (human_bid_stays defaults no_locals)
    as (snaps & df & Hs & Hd & _ & H & _).
  unfold row. rewrite Hd.
  destruct (nth_error df 2) as [e|] eqn:E.
  - exists e. split; [reflexivity|].
    apply (H 2%nat e); [lia | exact E | reflexivity | reflexivity].
  - exfalso. revert E. vm_compute in Hd. inversion Hd. discriminate.
Defined.

(** ** The nested function [record] on an arbitrary store *)

Lemma max_from_In l : forall best, In (max_from best l) (best :: l).
Proof.
  induction l as [|y r IH]; intros best; simpl; [now left|].
  destruct (IH (if price_of best <? price_of y then y else best)) as [H|H].
  - rewrite <- H. destruct (_ <? _); [right; now left | now left].
  - right; now right.
Qed.

Lemma min_from_In l : forall best, In (min_from best l) (best :: l).
Proof.
  induction l as [|y r IH]; intros best; simpl; [now left|].
  destruct (IH (if price_of y <? price_of best then y else best)) as [H|H].
  - rewrite <- H. destruct (_ <? _); [right; now left | now left].
  - right; now right.
Qed.

(** The store [record] leaves on a book with a first bid and a first ask. *)
Lemma record_run stamp who what pr nt s b0 bl a0 al :
  bids (orderbook s) = b0 :: bl -> asks (orderbook s) = a0 :: al ->
  record stamp who what pr nt s =
  inr (tt, mkLocals (orderbook s)
             (events s ++
              [mkEvent stamp who what pr
                 (price_of (max_from b0 bl)) (price_of (min_from a0 al))
                 ((price_of (max_from b0 bl) + price_of (min_from a0 al)) / 2)
                 nt])
             (ts s)).
Proof.
  intros Hb Ha. unfold record, get_bids, get_asks, events_append, bind, get,
    ret, lift, put. rewrite Hb. simpl. rewrite Ha. reflexivity.
Qed.

(** X1: on a store whose bid and ask lists are not empty, [record] returns
    normally, appends exactly one row after the rows already there, copies
    its five arguments into that row, and leaves the orderbook and the
    counter as they were. *)
Theorem record_appends_one_row stamp who what pr nt s :
  bids (orderbook s) <> [] -> asks (orderbook s) <> [] ->
  exists e,
    record stamp who what pr nt s =
      inr (tt, mkLocals (orderbook s) (events s ++ [e]) (ts s)) /\
    t e = stamp /\ actor e = who /\ action e = what /\
    price e = pr /\ note e = nt.
Proof.
  intros Hb Ha.
  destruct (bids (orderbook s)) as [|b0 bl] eqn:Eb; [congruence|].
  destruct (asks (orderbook s)) as [|a0 al] eqn:Ea; [congruence|].
  eexists. split; [apply (record_run _ _ _ _ _ _ _ _ _ _ Eb Ea)|].
  repeat split.
Qed.

Lemma record_appends_one_row_witness :
  exists e,
    record 7 ALGO "Probe" None None
      (mkLocals (mkBook [(20, 100%Z, ALGO)] [(100, 100%Z, ALGO)]) [] 7) =
      inr (tt, mkLocals (mkBook [(20, 100%Z, ALGO)] [(100, 100%Z, ALGO)]) [e] 7) /\
    t e = 7%Z.
Proof.
  destruct (record_appends_one_row 7 ALGO "Probe" None None
              (mkLocals (mkBook [(20, 100%Z, ALGO)] [(100, 100%Z, ALGO)]) [] 7))
    as (e & H & Ht & _); [discriminate | discriminate |].
  exists e. split; [exact H | exact Ht].
Defined.

(** X2: [record] raises [ValueError] exactly when the bid list or the ask
    list is empty, and it never raises [IndexError]. *)
Theorem record_raises_iff_empty stamp who what pr nt s :
  (record stamp who what pr nt s = inl ValueError <->
   bids (orderbook s) = [] \/ asks (orderbook s) = []) /\
  record stamp who what pr nt s <> inl IndexError.
Proof.
  unfold record, get_bids, get_asks, events_append, bind, get, ret, lift, put.
  destruct (bids (orderbook s)) as [|b0 bl]; simpl.
  - split; [split; auto | discriminate].
  - destruct (asks (orderbook s)) as [|a0 al]; simpl.
    + split; [split; auto | discriminate].
    + split; [|discriminate]. split; [discriminate|].
      intros [H|H]; discriminate.
Qed.

(** X3: the two quotes of the row that [record] appends are prices of
    orders in the book: [best_bid] of some bid and [best_ask] of some ask,
    whatever the prices are. *)
Theorem record_quotes_from_book stamp who what pr nt s s' :
  record stamp who what pr nt s = inr (tt, s') ->
  exists e,
    events s' = events s ++ [e] /\
    In (best_bid e) (map price_of (bids (orderbook s))) /\
    In (best_ask e) (map price_of (asks (orderbook s))).
Proof.
  intros H.
  destruct (bids (orderbook s)) as [|b0 bl] eqn:Eb.
  { unfold record, get_bids, get_asks, bind, get, ret, lift in H.
    rewrite Eb in H. discriminate. }
  destruct (asks (orderbook s)) as [|a0 al] eqn:Ea.
  { unfold record, get_bids, get_asks, bind, get, ret, lift in H.
    rewrite Eb in H. simpl in H. rewrite Ea in H. discriminate. }
  rewrite (record_run _ _ _ _ _ _ _ _ _ _ Eb Ea) in H.
  inversion H; subst s'; clear H. eexists. split; [reflexivity|]. simpl best_bid.
  simpl best_ask. split; apply in_map; [apply max_from_In | apply min_from_In].
Qed.

Lemma record_quotes_from_book_witness :
  exists e,
    In (best_bid e) [20; 21] /\ In (best_ask e) [100].
Proof.
  destruct (record_quotes_from_book 1 HUMAN "Post bid" (Some 21) None
              (mkLocals (mkBook [(20, 100%Z, ALGO); (21, 10%Z, HUMAN)]
                                [(100, 100%Z, ALGO)]) [] 1)
              _ eq_refl) as (e & _ & Hb & Ha).
  exists e. split; [exact Hb | exact Ha].
Defined.

(** X4: when no order of the book is priced NaN, the row that [record]
    appends shows the maximum bid price and the minimum ask price. *)
Theorem record_quotes_extremal stamp who what pr nt s s' :
  book_priced (orderbook s) ->
  record stamp who what pr nt s = inr (tt, s') ->
  exists e,
    events s' = events s ++ [e] /\
    maximum_price (bids (orderbook s)) (best_bid e) /\
    minimum_price (asks (orderbook s)) (best_ask e).
Proof.
  intros [Pb Pa] H.
  destruct (bids (orderbook s)) as [|b0 bl] eqn:Eb.
  { unfold record, get_bids, get_asks, bind, get, ret, lift in H.
    rewrite Eb in H. discriminate. }
  destruct (asks (orderbook s)) as [|a0 al] eqn:Ea.
  { unfold record, get_bids, get_asks, bind, get, ret, lift in H.
    rewrite Eb in H. simpl in H. rewrite Ea in H. discriminate. }
  rewrite (record_run _ _ _ _ _ _ _ _ _ _ Eb Ea) in H.
  inversion H; subst s'; clear H. eexists. split; [reflexivity|].
  split; [now apply py_max_maximum | now apply py_min_minimum].
Qed.

Lemma record_quotes_extremal_witness :
  exists e,
    maximum_price [(20, 100%Z, ALGO); (21, 10%Z, HUMAN)] (best_bid e) /\
    minimum_price [(100, 100%Z, ALGO)] (best_ask e).
Proof.
  edestruct (record_quotes_extremal 1 HUMAN "Post bid" (Some 21) None
               (mkLocals (mkBook [(20, 100%Z, ALGO); (21, 10%Z, HUMAN)]
                                 [(100, 100%Z, ALGO)]) [] 1))
    as (e & _ & Hb & Ha).
  - split; repeat constructor.
  - run. reflexivity.
  - exists e. split; [exact Hb | exact Ha].
Defined.

(** X5: two calls of [record] in a row, with nothing changed in between,
    append two rows with the same best bid, best ask and mid: taking a
    snapshot does not disturb the book. *)
Theorem record_twice_same_quotes stamp1 who1 what1 pr1 nt1
    stamp2 who2 what2 pr2 nt2 s :
  bids (orderbook s) <> [] -> asks (orderbook s) <> [] ->
  exists e1 e2,
    (record stamp1 who1 what1 pr1 nt1 ;; record stamp2 who2 what2 pr2 nt2) s =
      inr (tt, mkLocals (orderbook s) (events s ++ [e1; e2]) (ts s)) /\
    quotes e2 = quotes e1 /\ mid e2 = mid e1.
Proof.
  intros Hb Ha.
  destruct (bids (orderbook s)) as [|b0 bl] eqn:Eb; [congruence|].
  destruct (asks (orderbook s)) as [|a0 al] eqn:Ea; [congruence|].
  do 2 eexists. split.
  - unfold bind at 1. rewrite (record_run _ _ _ _ _ _ _ _ _ _ Eb Ea).
    erewrite record_run; [|simpl; rewrite Eb; reflexivity
                           |simpl; rewrite Ea; reflexivity].
    simpl. rewrite <- app_assoc. reflexivity.
  - split; reflexivity.
Qed.

Lemma record_twice_same_quotes_witness :
  exists e1 e2,
    (record 0 "INIT" "Initial quotes" None None ;;
     record 1 ALGO "Again" None None)
      (mkLocals (mkBook [(20, 100%Z, ALGO)] [(100, 100%Z, ALGO)]) [] 0) =
      inr (tt, mkLocals (mkBook [(20, 100%Z, ALGO)] [(100, 100%Z, ALGO)])
                        [e1; e2] 0) /\
    mid e2 = mid e1.
Proof.
  destruct (record_twice_same_quotes 0 "INIT" "Initial quotes" None None
              1 ALGO "Again" None None
              (mkLocals (mkBook [(20, 100%Z, ALGO)] [(100, 100%Z, ALGO)]) [] 0))
    as (e1 & e2 & H & _ & Hm); [discriminate | discriminate |].
  exists e1, e2. split; [exact H | exact Hm].
Defined.

(** ** More on the run of the script *)

(** X6: the event list only grows: at the snapshot point of step [k] it
    holds exactly the first [k + 1] rows of the returned table, and the
    counter [ts] is [k]. *)
Theorem events_grow_by_prefix (p : params) (s : locals) :
  exists snaps df,
    snapshots p s = inr snaps /\
    eval (simulate p) s = inr df /\
    List.length snaps = List.length df /\
    forall k st, nth_error snaps k = Some st ->
      events st = firstn (S k) df /\ ts st = Z.of_nat k.
Proof.
  destruct p as [fp ab aa hb pct].
  do 2 eexists. split; [run; reflexivity|]. split; [run; reflexivity|].
  split; [reflexivity|].
  intros k st E.
  destruct k as [|[|[|[|[|k]]]]]; simpl in E;
    try (destruct k; discriminate);
    inversion E; subst st; split; reflexivity.
Qed.

(** X7: the reset of step 4 brings the book back to what it was right after
    the human's order at t=1, so the rows at t=4 and t=1 show the same best
    bid, best ask and mid. *)
Theorem reset_restores_post_bid_book (p : params) (s : locals) :
  exists snaps st1 st4 e1 e4,
    snapshots p s = inr snaps /\
    nth_error snaps 1 = Some st1 /\ nth_error snaps 4 = Some st4 /\
    row p s 1 = Some e1 /\ row p s 4 = Some e4 /\
    orderbook st4 = orderbook st1 /\
    quotes e4 = quotes e1 /\ mid e4 = mid e1.
Proof.
  destruct p as [fp ab aa hb pct].
  do 5 eexists. split; [run; reflexivity|].
  do 2 (split; [reflexivity|]).
  do 2 (split; [run; reflexivity|]).
  repeat split.
Qed.

(** X8: re-quoting replaces, it never adds: at every snapshot point the
    algo has exactly one bid and one ask, each for 100, the human has at
    most one bid, for 10, and no ask, and nobody else has an order. *)
Theorem one_quote_per_side (p : params) (s : locals) :
  exists snaps,
    snapshots p s = inr snaps /\
    Forall (fun st => one_quote_each (orderbook st)) snaps.
Proof.
  destruct p as [fp ab aa hb pct].
  eexists. split; [run; reflexivity|].
  repeat constructor.
Qed.

(** X9: the rows at t=0 and t=4 carry no price; the price of each other row
    is the price of an order of the row's actor that stands in the book at
    that snapshot. *)
Theorem price_column_anchored (p : params) (s : locals) :
  exists snaps df,
    snapshots p s = inr snaps /\
    eval (simulate p) s = inr df /\
    Forall2 price_anchored snaps df /\
    map (fun e => match price e with None => false | Some _ => true end) df =
      [false; true; true; true; false].
Proof.
  destruct p as [fp ab aa hb pct].
  do 2 eexists. split; [run; reflexivity|]. split; [run; reflexivity|].
  split; [|reflexivity].
  repeat constructor; unfold price_anchored, standing; simpl; try exact I;
    eexists; simpl; eauto.
Qed.

(** X10: the steps on the bid side leave the best ask alone and the step on
    the ask side leaves the best bid alone: the best ask is [algo_ask] at
    t=0, 1 and 2, the best bid at t=3 is the one of t=2, and the first row
    shows the algo's own quotes. *)
Theorem sides_move_independently (p : params) (s : locals) :
  exists e0 e1 e2 e3,
    row p s 0 = Some e0 /\ row p s 1 = Some e1 /\
    row p s 2 = Some e2 /\ row p s 3 = Some e3 /\
    quotes e0 = (algo_bid p, algo_ask p) /\
    best_ask e1 = algo_ask p /\ best_ask e2 = algo_ask p /\
    best_bid e3 = best_bid e2.
Proof.
  destruct p as [fp ab aa hb pct].
  do 4 eexists. do 4 (split; [run; reflexivity|]).
  repeat split.
Qed.

(** ** Multiplying by one is exact *)

Lemma mul_2p52 m : (4503599627370496 * m)%positive =
  Pos.iter xO m 52%positive.
Proof. reflexivity. Qed.

Lemma digits2_pos_xO_iter n : forall m,
  Z.pos (digits2_pos (Pos.iter xO m n)) = (Z.pos (digits2_pos m) + Z.pos n)%Z.
Proof.
  intros m. induction n using Pos.peano_ind.
  - simpl. lia.
  - rewrite Pos.iter_succ. simpl digits2_pos. rewrite Pos2Z.inj_succ, IHn. lia.
Qed.

Lemma iter_pos_Pos_iter {A} (f : A -> A) n : forall x,
  SpecFloat.iter_pos f n x = Pos.iter f x n.
Proof.
  induction n as [n IH|n IH|]; intros x; simpl.
  - rewrite !IH, Pos.iter_swap, Pos.iter_swap. reflexivity.
  - rewrite !IH. reflexivity.
  - reflexivity.
Qed.

Lemma iter_shr_1_xO n : forall m,
  SpecFloat.iter_pos shr_1 n
    {| shr_m := Z.pos (Pos.iter xO m n); shr_r := false; shr_s := false |} =
  {| shr_m := Z.pos m; shr_r := false; shr_s := false |}.
Proof.
  intros m. rewrite iter_pos_Pos_iter. induction n using Pos.peano_ind.
  - reflexivity.
  - rewrite Pos.iter_succ_r, Pos.iter_succ. simpl shr_1. exact IHn.
Qed.

Lemma SFmul_one x : valid_binary x = true -> SF64mul x (Prim2SF 1) = x.
Proof.
  intros V. change (Prim2SF 1) with (S754_finite false 4503599627370496 (-52)).
  unfold SF64mul, SFmul.
  destruct x as [s|s| |s m e]; try (destruct s; reflexivity); try reflexivity.
  simpl in V. unfold bounded, canonical_mantissa in V.
  apply andb_prop in V. destruct V as [C B]. apply Z.eqb_eq in C.
  rewrite xorb_false_r, Pos.mul_comm, mul_2p52.
  unfold binary_round_aux, shr_fexp, Zdigits2.
  rewrite digits2_pos_xO_iter.
  replace (Z.pos (digits2_pos m) + 52 + (e + -52))%Z
    with (Z.pos (digits2_pos m) + e)%Z by lia.
  rewrite C. replace (e - (e + -52))%Z with 52%Z by lia.
  unfold shr, shr_record_of_loc. rewrite iter_shr_1_xO.
  unfold loc_of_shr_record, round_nearest_even, shr_m.
  replace (e + -52 + 52)%Z with e by lia.
  rewrite C, Z.sub_diag. unfold shr_m. rewrite B. reflexivity.
Qed.

Lemma mul_1_r x : x * 1 = x.
Proof.
  apply Prim2SF_inj. rewrite mul_spec. apply SFmul_one, Prim2SF_valid.
Qed.

(** ** The sell trigger at the ends of the slider *)

Lemma markup_at_0 : 1 + int_truediv 0 100 = 1.
Proof. reflexivity. Qed.

Lemma markup_at_100 : 1 + int_truediv 100 100 = 2.
Proof. reflexivity. Qed.

(** X11: with the threshold at 0 the sell trigger is [fair_price] itself, bit
    for bit, and with the threshold at 100 it is [fair_price * 2]; the row at
    t=3 shows it as best ask. *)
Theorem sell_trigger_at_slider_ends (p : params) (s : locals) :
  exists e,
    row p s 3 = Some e /\
    (threshold_pct p = 0%Z -> best_ask e = fair_price p) /\
    (threshold_pct p = 100%Z -> best_ask e = fair_price p * 2).
Proof.
  destruct p as [fp ab aa hb pct].
  eexists. split; [run; reflexivity|].
  simpl. unfold sell_trigger. simpl. split; intros ->.
  - rewrite markup_at_0. apply mul_1_r.
  - rewrite markup_at_100. reflexivity.
Qed.

Lemma sell_trigger_at_slider_ends_witness :
  exists e, row (mkParams 40 20 100 21 0) no_locals 3 = Some e /\
            best_ask e = 40.
Proof.
  destruct (sell_trigger_at_slider_ends (mkParams 40 20 100 21 0) no_locals)
    as (e & He & H0 & _).
  exists e. split; [exact He | apply H0; reflexivity].
Defined.

(** ** Prices that are not numbers *)

Lemma ltb_nan_r x y : is_nan y = true -> (x <? y) = false.
Proof.
  rewrite is_nan_Prim2SF, ltb_spec. unfold SFltb.
  destruct (Prim2SF y); try discriminate.
  destruct (Prim2SF x); reflexivity.
Qed.

Lemma ltb_nan_l x y : is_nan x = true -> (x <? y) = false.
Proof.
  rewrite is_nan_Prim2SF, ltb_spec. unfold SFltb.
  destruct (Prim2SF x); try discriminate. reflexivity.
Qed.

Lemma add_nan_l x y : is_nan x = true -> is_nan (x + y) = true.
Proof.
  rewrite !is_nan_Prim2SF, add_spec.
  destruct (Prim2SF x); try discriminate. reflexivity.
Qed.

(** X12: a human price that is NaN never shows: every comparison with it
    fails, so the best bid column is the algo's bid throughout
    ([algo_bid], [algo_bid], [algo_bid + 2], [algo_bid + 2], [algo_bid]). *)
Theorem nan_human_bid_never_shows (p : params) (s : locals) :
  is_nan (human_buy p) = true ->
  exists df,
    eval (simulate p) s = inr df /\
    map best_bid df =
      [algo_bid p; algo_bid p; algo_bid p + 2; algo_bid p + 2; algo_bid p].
Proof.
  intros N. destruct p as [fp ab aa hb pct]. simpl in N.
  eexists. split; [run; reflexivity|].
  run. rewrite !(ltb_nan_r _ hb N). reflexivity.
Qed.

Lemma nan_human_bid_never_shows_witness :
  exists df,
    eval (simulate (mkParams 40 20 100 nan 20)) no_locals = inr df /\
    map best_bid df = [20; 20; 22; 22; 20].
Proof.
  destruct (nan_human_bid_never_shows (mkParams 40 20 100 nan 20) no_locals
              eq_refl) as (df & H & Hb).
  exists df. split; [exact H | exact Hb].
Defined.

(** X13: an algo bid that is NaN hides the human's bid: being first in the
    list it is never replaced by [max], so the best bid of every row is NaN
    whatever the human price is. *)
Theorem nan_algo_bid_hides_human (p : params) (s : locals) :
  is_nan (algo_bid p) = true ->
  exists df,
    eval (simulate p) s = inr df /\
    List.length df = 5%nat /\
    Forall (fun e => is_nan (best_bid e) = true) df.
Proof.
  intros N. destruct p as [fp ab aa hb pct]. simpl in N.
  pose proof (add_nan_l ab 2 N) as N2.
  eexists. split; [run; reflexivity|]. split; [reflexivity|].
  run. rewrite !(ltb_nan_l ab hb N), !(ltb_nan_l (ab + 2) hb N2).
  repeat constructor; assumption.
Qed.

Lemma nan_algo_bid_hides_human_witness :
  exists df,
    eval (simulate (mkParams 40 nan 100 21 20)) no_locals = inr df /\
    Forall (fun e => is_nan (best_bid e) = true) df.
Proof.
  destruct (nan_algo_bid_hides_human (mkParams 40 nan 100 21 20) no_locals
              eq_refl) as (df & H & _ & Hb).
  exists df. split; [exact H | exact Hb].
Defined.

(** ** Which inputs a row depends on *)

(** X14: the fair price and the threshold matter to the row at t=3 only:
    two runs that differ in these two inputs alone return tables that agree
    on every other row; and the first row depends on the algo's two quotes
    alone. *)
Theorem fair_price_only_moves_row_3 (p : params) (fp' hb' : float) (pct' : Z)
    (s s' : locals) :
  exists df df',
    eval (simulate p) s = inr df /\
    eval (simulate (mkParams fp' (algo_bid p) (algo_ask p) (human_buy p) pct')) s'
      = inr df' /\
    (forall k, k <> 3%nat -> nth_error df' k = nth_error df k) /\
    row (mkParams fp' (algo_bid p) (algo_ask p) hb' pct') s' 0 = nth_error df 0.
Proof.
  destruct p as [fp ab aa hb pct].
  do 2 eexists. split; [run; reflexivity|]. split; [run; reflexivity|].
  split; [|run; reflexivity].
  intros k Hk.
  destruct k as [|[|[|[|[|k]]]]]; try reflexivity. congruence.
Qed.

Lemma fair_price_only_moves_row_3_witness :
  row (mkParams 55 20 100 21 70) no_locals 4 = row defaults no_locals 4.
Proof.
  destruct (fair_price_only_moves_row_3 defaults 55 21 70 no_locals no_locals)
    as (df & df' & H & H' & Hk & _).
  unfold row. simpl algo_bid in H'. simpl algo_ask in H'. simpl human_buy in H'.
  rewrite H, H'. apply Hk. discriminate.
Defined.
